(** * oo_learn: the object-oriented tutorial classes, embedded and verified

    The repository holds four stand-alone Python scripts,
    01_oop_basics/01_encapsulation.py to 04_abstraction.py.  The classes
    that the specification states properties of are embedded here as Rocq
    definitions that follow the Python text statement by statement:
    [BankAccount] (01), the payment methods (03), and the data-access
    backends, the notification facade and the weather report (04).  The
    animals and shapes of 02_inheritance.py and the loggers and widgets of
    03_polymorphism.py carry no stated property and are not embedded.

    Conventions of the embedding.
    - Python [int] is [Z].  The amounts of [BankAccount], annotated
      [float], are given as [int] by the script itself and are modelled as
      [Z]: IEEE arithmetic (rounding, [nan], [inf]) is not modelled there.
      A temperature is only compared with [int] literals, so it is
      modelled by its place in the order: a rational, an infinity or
      not-a-number.
    - Python [str] is [string], holding the UTF-8 bytes of the text.
    - A method that mutates [self] takes the attributes of [self] and
      returns the new ones.
    - [print], [datetime.now()], exceptions and the objects that are
      shared by reference (lists and dicts) live in a small state and
      exception monad [Py] over a [World]. *)

From Stdlib Require Import ZArith QArith Lqa String Ascii List Lia.
From stdpp Require Import base option list gmap strings pretty.

Local Open Scope string_scope.
Local Open Scope Z_scope.
Local Open Scope list_scope.

(** ** Python values and the object store *)

Abbreviation loc := nat (only parsing).

(** Immutable values. *)
Inductive scalar :=
  | PyNone
  | PyBool (b : bool)
  | PyInt (n : Z)
  | PyStr (s : string).

(** A value is immutable, or a reference to a list or dict object. *)
Inductive val :=
  | Imm (c : scalar)
  | Ref (l : loc).

Inductive obj :=
  | OList (items : list val)
  | ODict (d : gmap string val).

Inductive exn :=
  | RuntimeError (msg : string)
  | KeyError (key : string)
  | IndexError (msg : string)
  | AttributeError (msg : string)
  | TypeError (msg : string).

Inductive result (A : Type) :=
  | Ok (a : A)
  | Raise (e : exn).
Arguments Ok {A} a.
Arguments Raise {A} e.

(** [heap]: the list and dict objects, addressed by position; objects are
    never freed.  [stdout]: the texts given to [print], oldest first.
    [clock] and [ticks]: the n-th reading of [datetime.now().isoformat()]
    is [clock n], and [ticks] readings have been made. *)
Record World := mkWorld {
  heap : list obj;
  stdout : list string;
  clock : nat -> string;
  ticks : nat
}.

Definition Py (A : Type) : Type := World -> result A * World.

Global Instance Py_ret : MRet Py := fun A a w => (Ok a, w).

Global Instance Py_bind : MBind Py := fun A B k m w =>
  match m w with
  | (Ok a, w') => k a w'
  | (Raise e, w') => (Raise e, w')
  end.

Definition raise {A} (e : exn) : Py A := fun w => (Raise e, w).

(** The world after one more [print]. *)
Definition printed (s : string) (w : World) : World :=
  mkWorld (heap w) (stdout w ++ [s]) (clock w) (ticks w).

Definition print (s : string) : Py unit := fun w => (Ok tt, printed s w).

(** [datetime.now().isoformat()] *)
Definition now_isoformat : Py string :=
  fun w => (Ok (clock w (ticks w)),
            mkWorld (heap w) (stdout w) (clock w) (S (ticks w))).

Definition alloc (o : obj) : Py loc :=
  fun w => (Ok (length (heap w)),
            mkWorld (heap w ++ [o]) (stdout w) (clock w) (ticks w)).

Definition store (l : loc) (o : obj) : Py unit :=
  fun w => (Ok tt, mkWorld (<[l:=o]> (heap w)) (stdout w) (clock w) (ticks w)).

(** The list object behind a reference.  A reference to something that is
    not a list has no list methods. *)
Definition as_list (l : loc) : Py (list val) :=
  fun w =>
    match heap w !! l with
    | Some (OList items) => (Ok items, w)
    | _ => (Raise (AttributeError "list"), w)
    end.

Definition as_dict (l : loc) : Py (gmap string val) :=
  fun w =>
    match heap w !! l with
    | Some (ODict d) => (Ok d, w)
    | _ => (Raise (AttributeError "dict"), w)
    end.

(** [l.append(v)] *)
Definition list_append (l : loc) (v : val) : Py unit :=
  items ← as_list l; store l (OList (items ++ [v])).

(** [l.copy()]: a new list object with the same items (a shallow copy). *)
Definition list_copy (l : loc) : Py loc :=
  items ← as_list l; alloc (OList items).

(** [l.clear()] *)
Definition list_clear (l : loc) : Py unit :=
  _ ← as_list l; store l (OList []).

(** [l[i]], for an index [i >= 0]. *)
Definition list_getitem (l : loc) (i : nat) : Py val :=
  items ← as_list l;
  match items !! i with
  | Some v => mret v
  | None => raise (IndexError "list index out of range")
  end.

(** [l[i] = v], for an index [i >= 0]. *)
Definition list_setitem (l : loc) (i : nat) (v : val) : Py unit :=
  items ← as_list l;
  if decide (i < length items)%nat then store l (OList (<[i:=v]> items))
  else raise (IndexError "list assignment index out of range").

(** [del l[i]], for an index [i >= 0]. *)
Definition list_delitem (l : loc) (i : nat) : Py unit :=
  items ← as_list l;
  if decide (i < length items)%nat then store l (OList (delete i items))
  else raise (IndexError "list assignment index out of range").

(** [d[k]] *)
Definition dict_getitem (d : loc) (k : string) : Py val :=
  m ← as_dict d;
  match m !! k with
  | Some v => mret v
  | None => raise (KeyError k)
  end.

(** [d[k] = v] *)
Definition dict_setitem (d : loc) (k : string) (v : val) : Py unit :=
  m ← as_dict d; store d (ODict (<[k:=v]> m)).

(** [del d[k]] *)
Definition dict_delitem (d : loc) (k : string) : Py unit :=
  m ← as_dict d;
  match m !! k with
  | Some _ => store d (ODict (delete k m))
  | None => raise (KeyError k)
  end.

(** [v[k]] and [v[k] = x] with a string key, for a value [v] taken out of
    a list: a reference is followed to its dict, an immutable value is
    not subscriptable by a key. *)
Definition getitem (v : val) (k : string) : Py val :=
  match v with
  | Ref d => dict_getitem d k
  | Imm _ => raise (TypeError "object is not subscriptable")
  end.

Definition setitem (v : val) (k : string) (x : val) : Py unit :=
  match v with
  | Ref d => dict_setitem d k x
  | Imm _ => raise (TypeError "object does not support item assignment")
  end.

(** A world with no objects yet, nothing printed, and a clock that reads
    one second later each time. *)
Definition fresh_world : World :=
  mkWorld [] [] (λ n, "2024-01-01T09:00:0" +:+ pretty n) 0.

(** ** Formatting of integers *)

(** A comma before every group of three digits, on the digits written
    last first. *)
Fixpoint group3 (rev_digits : list ascii) : list ascii :=
  match rev_digits with
  | a :: b :: c :: ((_ :: _) as rest) => a :: b :: c :: ","%char :: group3 rest
  | _ => rev_digits
  end.

(** [format(n, ",")] for an [int]: the decimal digits in groups of three,
    after the sign. *)
Definition format_comma (n : Z) : string :=
  (if n <? 0 then "-" else "")
  +:+ string_of_list_ascii
        (rev (group3 (rev (list_ascii_of_string (pretty (Z.abs n)))))).

(** ** Slices of text *)

(** A Python [str] is a sequence of code points; in UTF-8 the bytes
    [10xxxxxx] continue the code point that an earlier byte began. *)
Definition is_continuation (a : ascii) : bool :=
  let n := nat_of_ascii a in ((128 <=? n) && (n <? 192))%nat.

(** The code points of a text, each as its bytes. *)
Fixpoint chars (s : string) : list string :=
  match s with
  | EmptyString => []
  | String a rest =>
      match chars rest with
      | String b c :: cs =>
          if is_continuation b then String a (String b c) :: cs
          else String a EmptyString :: String b c :: cs
      | cs => String a EmptyString :: cs
      end
  end.

Definition join (cs : list string) : string := foldr String.append EmptyString cs.

(** [s[:n]] and [s[-n:]] for [n > 0]. *)
Definition str_first (n : nat) (s : string) : string := join (take n (chars s)).
Definition str_last (n : nat) (s : string) : string :=
  let cs := chars s in join (drop (length cs - n) cs).

(** [len(s)] *)
Definition py_len (s : string) : nat := length (chars s).

(** [s * n] *)
Definition str_repeat (s : string) (n : nat) : string := join (replicate n s).

(** [format(s, "<" + str(width))]: spaces after [s] up to [width] code
    points, none when [s] is longer. *)
Definition ljust (width : nat) (s : string) : string :=
  s +:+ str_repeat " " (width - py_len s).

(** A text that does not begin in the middle of a code point; every
    Python [str] is one. *)
Definition starts_plain (s : string) : Prop :=
  match s with
  | String b _ => is_continuation b = false
  | EmptyString => True
  end.

(** The dict behind an item of a list, and the dicts behind all the items
    of the list object at [l]: what a caller sees who reads the list. *)
Definition dict_at (h : list obj) (v : val) : option (gmap string val) :=
  match v with
  | Ref l => match h !! l with Some (ODict d) => Some d | _ => None end
  | Imm _ => None
  end.

Definition entries_of (h : list obj) (l : loc) : option (list (gmap string val)) :=
  match h !! l with
  | Some (OList items) => mapM (dict_at h) items
  | _ => None
  end.

(** ** Runs that return, runs that raise *)

(** [post m w Q]: run from [w], [m] returns normally, with a value and a
    world that satisfy [Q]. *)
Definition post {A} (m : Py A) (w : World) (Q : A → World → Prop) : Prop :=
  match m w with
  | (Ok a, w') => Q a w'
  | (Raise _, _) => False
  end.

(** [m] raises [e] when run from [w]. *)
Definition raises {A} (m : Py A) (w : World) (e : exn) : Prop := (m w).1 = Raise e.

Lemma post_ret {A} (a : A) w (Q : A → World → Prop) : Q a w → post (mret a) w Q.
Proof. intros H. exact H. Qed.

Lemma post_bind {A B} (m : Py A) (k : A → Py B) w (Q : B → World → Prop) :
  post m w (λ a w', post (k a) w' Q) → post (m ≫= k) w Q.
Proof.
  unfold post, mbind, Py_bind. destruct (m w) as [[a|e] w']; intros H; exact H.
Qed.

Lemma post_mono {A} (m : Py A) w (P Q : A → World → Prop) :
  post m w P → (∀ a w', P a w' → Q a w') → post m w Q.
Proof.
  unfold post. destruct (m w) as [[a|e] w']; intros H HPQ; [apply HPQ; exact H | exact H].
Qed.

Lemma post_run {A} (m : Py A) w a w' (Q : A → World → Prop) :
  m w = (Ok a, w') → Q a w' → post m w Q.
Proof. unfold post. intros -> H. exact H. Qed.

(** Running the primitives on a store that is written [h ++ l]: the
    objects [l] allocated since some point, behind the older ones [h].
    The location of the [i]-th of them is [length h + i]. *)
Section recent_objects.

Context (h l : list obj) (out : list string) (clk : nat → string) (t : nat).

Lemma post_print s (Q' : unit → World → Prop) :
  Q' tt (mkWorld (h ++ l) (out ++ [s]) clk t) →
  post (print s) (mkWorld (h ++ l) out clk t) Q'.
Proof. intros H. exact H. Qed.

Lemma post_now (Q' : string → World → Prop) :
  Q' (clk t) (mkWorld (h ++ l) out clk (S t)) →
  post now_isoformat (mkWorld (h ++ l) out clk t) Q'.
Proof. intros H. exact H. Qed.

Lemma post_alloc o (Q' : nat → World → Prop) :
  Q' (length h + length l)%nat (mkWorld (h ++ (l ++ [o])) out clk t) →
  post (alloc o) (mkWorld (h ++ l) out clk t) Q'.
Proof.
  unfold post, alloc. cbn [heap stdout clock ticks].
  rewrite length_app, <- app_assoc. intros H. exact H.
Qed.

Lemma post_store i o (Q' : unit → World → Prop) :
  Q' tt (mkWorld (h ++ <[i:=o]> l) out clk t) →
  post (store (length h + i) o) (mkWorld (h ++ l) out clk t) Q'.
Proof.
  unfold post, store. cbn [heap stdout clock ticks].
  rewrite insert_app_r. intros H. exact H.
Qed.

Lemma post_as_list i items (Q' : list val → World → Prop) :
  l !! i = Some (OList items) →
  Q' items (mkWorld (h ++ l) out clk t) →
  post (as_list (length h + i)) (mkWorld (h ++ l) out clk t) Q'.
Proof.
  unfold post, as_list. cbn [heap]. intros Hl H.
  rewrite lookup_app_r by lia.
  replace (length h + i - length h)%nat with i by lia. rewrite Hl. exact H.
Qed.

Lemma post_as_dict i d (Q' : gmap string val → World → Prop) :
  l !! i = Some (ODict d) →
  Q' d (mkWorld (h ++ l) out clk t) →
  post (as_dict (length h + i)) (mkWorld (h ++ l) out clk t) Q'.
Proof.
  unfold post, as_dict. cbn [heap]. intros Hl H.
  rewrite lookup_app_r by lia.
  replace (length h + i - length h)%nat with i by lia. rewrite Hl. exact H.
Qed.

End recent_objects.

(** *** Slices *)

Lemma append_cons (a : ascii) (s1 s2 : string) :
  String a s1 +:+ s2 = String a (s1 +:+ s2).
Proof. reflexivity. Qed.

Lemma append_assoc (s1 s2 s3 : string) : (s1 +:+ s2) +:+ s3 = s1 +:+ (s2 +:+ s3).
Proof.
  induction s1 as [|a s1 IH]; [reflexivity |].
  rewrite !append_cons, IH. reflexivity.
Qed.

Lemma join_cons (c : string) (cs : list string) : join (c :: cs) = c +:+ join cs.
Proof. reflexivity. Qed.

Lemma join_app (l1 l2 : list string) : join (l1 ++ l2) = join l1 +:+ join l2.
Proof.
  induction l1 as [|c l1 IH]; [reflexivity |].
  cbn [app]. rewrite !join_cons, IH, append_assoc. reflexivity.
Qed.

Lemma chars_cons (a : ascii) (rest : string) :
  chars (String a rest) =
    match chars rest with
    | String b c :: cs =>
        if is_continuation b then String a (String b c) :: cs
        else String a EmptyString :: String b c :: cs
    | cs => String a EmptyString :: cs
    end.
Proof. reflexivity. Qed.

(** The code points of a text, put together again, are the text. *)
Lemma join_chars (s : string) : join (chars s) = s.
Proof.
  induction s as [|a rest IH]; [reflexivity |].
  rewrite chars_cons. destruct (chars rest) as [|g cs].
  - rewrite join_cons, IH. reflexivity.
  - assert (Hplain : join (String a EmptyString :: g :: cs) = String a rest)
      by (rewrite join_cons, IH; reflexivity).
    destruct g as [|b c]; [exact Hplain |].
    destruct (is_continuation b); [| exact Hplain].
    rewrite join_cons, append_cons, <- (join_cons (String b c) cs), IH. reflexivity.
Qed.

(** The first [n] code points of a text are code points of their own, and
    so are those from the [k]-th on. *)
Lemma chars_join_take (s : string) : ∀ n,
  chars (join (take n (chars s))) = take n (chars s).
Proof.
  induction s as [|a rest IH]; intros n; [destruct n; reflexivity |].
  destruct n as [|n]; [reflexivity |].
  rewrite chars_cons.
  destruct (chars rest) as [|g cs] eqn:Hcs.
  - destruct n; reflexivity.
  - assert (Hplain :
      chars (join (take (S n) (String a EmptyString :: g :: cs)))
      = match take n (g :: cs) with
        | String b c :: cs' =>
            if is_continuation b then String a (String b c) :: cs'
            else String a EmptyString :: String b c :: cs'
        | cs' => String a EmptyString :: cs'
        end).
    { cbn [take]. rewrite join_cons.
      change (String a EmptyString +:+ join (take n (g :: cs)))
        with (String a (join (take n (g :: cs)))).
      rewrite chars_cons, (IH n). reflexivity. }
    destruct g as [|b c].
    + rewrite Hplain. destruct n; reflexivity.
    + destruct (is_continuation b) eqn:Hb.
      * cbn [take]. rewrite join_cons, append_cons.
        rewrite <- (join_cons (String b c) (take n cs)).
        change (String b c :: take n cs) with (take (S n) (String b c :: cs)).
        rewrite chars_cons, (IH (S n)). cbn [take]. rewrite Hb. reflexivity.
      * rewrite Hplain. destruct n; [reflexivity |]. cbn [take]. rewrite Hb. reflexivity.
Qed.

Lemma chars_join_drop (s : string) : ∀ k,
  chars (join (drop k (chars s))) = drop k (chars s).
Proof.
  induction s as [|a rest IH]; intros k; [destruct k; reflexivity |].
  destruct k as [|k].
  - rewrite !drop_0, join_chars. reflexivity.
  - rewrite chars_cons. destruct (chars rest) as [|g cs] eqn:Hcs.
    + destruct k; reflexivity.
    + destruct g as [|b c]; [| destruct (is_continuation b)]; cbn [drop].
      * apply (IH k).
      * apply (IH (S k)).
      * apply (IH k).
Qed.

Lemma chars_head (b : ascii) (c : string) :
  ∃ g cs, chars (String b c) = String b g :: cs.
Proof.
  rewrite chars_cons. destruct (chars c) as [|[|b' c'] cs]; eauto.
  destruct (is_continuation b'); eauto.
Qed.

(** The code points of two texts put together, when the second begins a
    code point. *)
Lemma chars_app (s1 s2 : string) :
  starts_plain s2 → chars (s1 +:+ s2) = chars s1 ++ chars s2.
Proof.
  intros Hs2. induction s1 as [|a r IH]; [reflexivity |].
  rewrite append_cons, !chars_cons, IH.
  destruct (chars r) as [|g cs];
    [| cbn [app]; destruct g as [|b' c']; [| destruct (is_continuation b')]; reflexivity].
  destruct s2 as [|b c]; [reflexivity |].
  destruct (chars_head b c) as (g & cs & Hg). rewrite Hg.
  cbn [app]. cbn in Hs2. rewrite Hs2. reflexivity.
Qed.

Lemma py_len_app (s1 s2 : string) :
  starts_plain s2 → py_len (s1 +:+ s2) = (py_len s1 + py_len s2)%nat.
Proof. intros Hs2. unfold py_len. rewrite chars_app by exact Hs2. apply length_app. Qed.

Lemma spaces_len (k : nat) (tail : string) :
  starts_plain tail →
  starts_plain (str_repeat " " k +:+ tail)
  ∧ py_len (str_repeat " " k +:+ tail) = (k + py_len tail)%nat.
Proof.
  intros Ht. induction k as [|k [IHs IHl]]; [split; [exact Ht | reflexivity] |].
  change (str_repeat " " (S k) +:+ tail)
    with (String " "%char (str_repeat " " k +:+ tail)).
  split; [reflexivity |].
  change (String " "%char (str_repeat " " k +:+ tail))
    with (" " +:+ (str_repeat " " k +:+ tail)).
  rewrite py_len_app by exact IHs. rewrite IHl. reflexivity.
Qed.

Lemma starts_plain_app (s1 s2 : string) :
  starts_plain s1 → starts_plain s2 → starts_plain (s1 +:+ s2).
Proof. intros H1 H2. destruct s1 as [|b c]; [exact H2 | exact H1]. Qed.

(** [len(format(s, "<w"))] is [max(w, len(s))]: the text is never cut. *)
Lemma ljust_len (width : nat) (s : string) :
  py_len (ljust width s) = (width `max` py_len s)%nat.
Proof.
  unfold ljust.
  pose proof (spaces_len (width - py_len s) "" I) as [Hs Hl].
  assert (Happ : ∀ x, x +:+ "" = x)
    by (intros x; induction x as [|a x IHx]; [reflexivity | rewrite append_cons, IHx; reflexivity]).
  rewrite Happ in Hs, Hl.
  rewrite py_len_app by exact Hs. rewrite Hl. cbn. lia.
Qed.

Lemma str_first_len (n : nat) (s : string) :
  py_len (str_first n s) = (n `min` py_len s)%nat.
Proof.
  unfold py_len, str_first. rewrite chars_join_take, length_take. reflexivity.
Qed.

Lemma str_last_len (n : nat) (s : string) :
  py_len (str_last n s) = (n `min` py_len s)%nat.
Proof.
  unfold py_len, str_last. cbv zeta. rewrite chars_join_drop, length_drop. lia.
Qed.

Lemma str_first_split (n : nat) (s : string) :
  s = str_first n s +:+ join (drop n (chars s)).
Proof.
  unfold str_first. rewrite <- join_app, take_drop. symmetry. apply join_chars.
Qed.

Lemma str_last_split (n : nat) (s : string) :
  s = join (take (py_len s - n) (chars s)) +:+ str_last n s.
Proof.
  unfold str_last, py_len. cbv zeta.
  rewrite <- join_app, take_drop. symmetry. apply join_chars.
Qed.

Lemma str_first_all (n : nat) (s : string) : (py_len s ≤ n)%nat → str_first n s = s.
Proof.
  unfold py_len, str_first. intros Hlen.
  rewrite take_ge by exact Hlen. apply join_chars.
Qed.

Lemma str_last_all (n : nat) (s : string) : (py_len s ≤ n)%nat → str_last n s = s.
Proof.
  unfold py_len, str_last. cbv zeta. intros Hlen.
  replace (length (chars s) - n)%nat with 0%nat by lia.
  rewrite drop_0. apply join_chars.
Qed.

(** One step of a run: the next primitive, by its rule above. *)
Ltac py_step :=
  lazymatch goal with
  | |- post (mbind _ _) _ _ => apply post_bind
  | |- post (mret _) _ _ => apply post_ret
  | |- post (print _) _ _ => apply post_print
  | |- post now_isoformat _ _ => apply post_now
  | |- post (alloc _) _ _ => apply post_alloc
  | |- post (store _ _) _ _ => apply post_store
  | |- post (as_list _) _ _ => eapply post_as_list; [reflexivity |]
  | |- post (as_dict _) _ _ => eapply post_as_dict; [reflexivity |]
  end;
  cbn beta iota delta [length app fst snd].

(** ** 01_encapsulation.py: class BankAccount *)

Module Encapsulation.

(** The attributes of a [BankAccount] object.  [__transaction_history]
    refers to the list object created by [__init__]; its items refer to
    the dict objects appended by [__record_transaction]. *)
Record BankAccount := mkBankAccount {
  _owner : string;
  __balance : Z;
  __transaction_history : loc
}.


Section bank_account.

(** The text that the format specification [,.0f] gives for a number.
    Python computes it through a conversion to [float]; the digits are
    not modelled, and no property below depends on them. *)
Variable format_0f : Z -> string.

Definition __init__ (owner : string) (initial_balance : Z) : Py BankAccount :=
  history ← alloc (OList []);
  mret (mkBankAccount owner initial_balance history).

(** The read-only properties. *)
Definition balance (self : BankAccount) : Z := __balance self.
Definition owner (self : BankAccount) : string := _owner self.

Definition __record_transaction (self : BankAccount)
    (transaction_type : string) (amount : Z) : Py unit :=
  timestamp ← now_isoformat;
  tx ← alloc (ODict (<["type" := Imm (PyStr transaction_type)]>
                    (<["amount" := Imm (PyInt amount)]>
                    (<["timestamp" := Imm (PyStr timestamp)]> ∅))));
  list_append (__transaction_history self) (Ref tx).

Definition deposit_error : string :=
  "エラー: 入金額は正の数である必要があります".

Definition deposit_done (amount new_balance : Z) : string :=
  "入金完了: ¥" +:+ format_0f amount +:+ " → 残高: ¥" +:+ format_0f new_balance.

Definition deposit (amount : Z) (self : BankAccount) : Py (bool * BankAccount) :=
  if amount <=? 0 then
    print deposit_error;;
    mret (false, self)
  else
    let self := mkBankAccount (_owner self) (__balance self + amount)
                              (__transaction_history self) in
    __record_transaction self "deposit" amount;;
    print (deposit_done amount (__balance self));;
    mret (true, self).

Definition withdraw_error : string :=
  "エラー: 出金額は正の数である必要があります".

Definition withdraw_insufficient (current : Z) : string :=
  "エラー: 残高不足です（残高: ¥" +:+ format_0f current +:+ "）".

Definition withdraw_done (amount new_balance : Z) : string :=
  "出金完了: ¥" +:+ format_0f amount +:+ " → 残高: ¥" +:+ format_0f new_balance.

Definition withdraw (amount : Z) (self : BankAccount) : Py (bool * BankAccount) :=
  if amount <=? 0 then
    print withdraw_error;;
    mret (false, self)
  else if amount >? __balance self then
    print (withdraw_insufficient (__balance self));;
    mret (false, self)
  else
    let self := mkBankAccount (_owner self) (__balance self - amount)
                              (__transaction_history self) in
    __record_transaction self "withdraw" amount;;
    print (withdraw_done amount (__balance self));;
    mret (true, self).

Definition get_statement (self : BankAccount) : Py loc :=
  list_copy (__transaction_history self).

(** *** Sequences of calls *)

Inductive call :=
  | Deposit (amount : Z)
  | Withdraw (amount : Z).

Definition do_call (c : call) (self : BankAccount) : Py (bool * BankAccount) :=
  match c with
  | Deposit amount => deposit amount self
  | Withdraw amount => withdraw amount self
  end.

(** The calls are made one after the other on the same account; the
    results come back in call order. *)
Fixpoint run_calls (cs : list call) (self : BankAccount)
    : Py (list bool * BankAccount) :=
  match cs with
  | [] => mret ([], self)
  | c :: cs' =>
      r ← do_call c self;
      rs ← run_calls cs' r.2;
      mret (r.1 :: rs.1, rs.2)
  end.

(** The dict that [__record_transaction] appends. *)
Definition tx_record (transaction_type : string) (amount : Z)
    (timestamp : string) : gmap string val :=
  <["type" := Imm (PyStr transaction_type)]>
    (<["amount" := Imm (PyInt amount)]>
    (<["timestamp" := Imm (PyStr timestamp)]> ∅)).

(** The world after [__record_transaction], when the history list holds
    [items]: one clock reading, one new dict, the list one item longer. *)
Definition recorded (self : BankAccount) (items : list val)
    (transaction_type : string) (amount : Z) (w : World) : World :=
  mkWorld
    (<[__transaction_history self := OList (items ++ [Ref (length (heap w))])]>
       (heap w ++ [ODict (tx_record transaction_type amount (clock w (ticks w)))]))
    (stdout w) (clock w) (S (ticks w)).

(** The history attribute refers to a list object, as it does from
    [__init__] on. *)
Definition history_is (self : BankAccount) (w : World) (items : list val) : Prop :=
  heap w !! __transaction_history self = Some (OList items).

(** *** The transaction log along a sequence of calls *)

(** What the account's own history list shows. *)
Definition log (self : BankAccount) (w : World) : option (list (gmap string val)) :=
  entries_of (heap w) (__transaction_history self).

Definition kind (c : call) : string :=
  match c with Deposit _ => "deposit" | Withdraw _ => "withdraw" end.

Definition amount_of (c : call) : Z :=
  match c with Deposit amount | Withdraw amount => amount end.

(** The calls that returned [True], in call order. *)
Fixpoint successful (cs : list call) (rs : list bool) : list call :=
  match cs, rs with
  | c :: cs', true :: rs' => c :: successful cs' rs'
  | _ :: cs', false :: rs' => successful cs' rs'
  | _, _ => []
  end.

(** One record per call, stamped with the clock readings [t], [t+1], ... *)
Fixpoint entries (clk : nat → string) (t : nat) (cs : list call)
    : list (gmap string val) :=
  match cs with
  | [] => []
  | c :: cs' => tx_record (kind c) (amount_of c) (clk t) :: entries clk (S t) cs'
  end.

(** *** A caller who holds a statement *)

(** What a caller can do to the list object it was given. *)
Inductive list_mutation :=
  | Append (v : val)
  | Clear
  | SetItem (i : nat) (v : val)
  | DelItem (i : nat).

Definition mutate_list (l : loc) (m : list_mutation) : Py unit :=
  match m with
  | Append v => list_append l v
  | Clear => list_clear l
  | SetItem i v => list_setitem l i v
  | DelItem i => list_delitem l i
  end.

(** [acct = BankAccount(owner, 0); acct.deposit(100);]
    [s = acct.get_statement(); caller(s);]
    [return acct.get_statement()[0]["amount"]] *)
Definition amount_seen_after (caller : loc → Py unit) (owner0 : string) : Py val :=
  self ← __init__ owner0 0;
  r ← deposit 100 self;
  s ← get_statement r.2;
  caller s;;
  later ← get_statement r.2;
  tx ← list_getitem later 0;
  getitem tx "amount".

(** [s[0]["amount"] = 999] *)
Definition forge_amount (s : loc) : Py unit :=
  tx ← list_getitem s 0;
  setitem tx "amount" (Imm (PyInt 999)).

Ltac bank_run :=
  repeat first
    [ py_step
    | progress cbn [_owner __balance __transaction_history Z.leb Z.compare
                    lookup list_lookup insert list_insert]
    | progress unfold deposit, __record_transaction, list_append, list_clear,
        get_statement, list_copy, list_getitem, setitem, getitem,
        dict_setitem, dict_getitem ].

(** *** The ledger *)



(** The world after a caller has applied the mutations [ms], one after
    the other, to the list object [l]; a mutation that raises leaves the
    world as it was. *)
Definition mutated (l : loc) (ms : list list_mutation) (w : World) : World :=
  foldl (λ w m, (mutate_list l m w).2) w ms.

(** *** Properties *)

Lemma record_transaction_run self items ty amount w :
  history_is self w items →
  __record_transaction self ty amount w = (Ok tt, recorded self items ty amount w).
Proof.
  unfold history_is. intros Hh.
  assert (Hlt : (__transaction_history self < length (heap w))%nat)
    by (eapply lookup_lt_Some; eassumption).
  unfold __record_transaction, list_append, as_list, alloc, store, now_isoformat.
  unfold mbind, Py_bind. cbn [heap stdout clock ticks].
  rewrite lookup_app_l by exact Hlt. rewrite Hh. reflexivity.
Qed.


Lemma withdraw_rejects_non_positive self amount w :
  amount ≤ 0 →
  withdraw amount self w = (Ok (false, self), printed withdraw_error w).
Proof.
  intros Ha. unfold withdraw.
  destruct (Z.leb_spec amount 0) as [_|Hgt]; [reflexivity | lia].
Qed.

Lemma withdraw_rejects_overdraft self amount w :
  0 < amount → balance self < amount →
  withdraw amount self w =
    (Ok (false, self), printed (withdraw_insufficient (balance self)) w).
Proof.
  intros Ha Hb. unfold withdraw, balance in *.
  destruct (Z.leb_spec amount 0) as [Hle|_]; [lia |].
  rewrite Z.gtb_ltb.
  destruct (Z.ltb_spec (__balance self) amount) as [_|Hge]; [reflexivity | lia].
Qed.

Lemma withdraw_accepts self items amount w :
  history_is self w items →
  0 < amount → amount ≤ balance self →
  withdraw amount self w =
    (Ok (true, mkBankAccount (owner self) (balance self - amount)
                             (__transaction_history self)),
     printed (withdraw_done amount (balance self - amount))
             (recorded self items "withdraw" amount w)).
Proof.
  intros Hh Ha Hb. unfold withdraw, balance, owner in *.
  destruct (Z.leb_spec amount 0) as [Hle|_]; [lia |].
  rewrite Z.gtb_ltb.
  destruct (Z.ltb_spec (__balance self) amount) as [Hlt|_]; [lia |].
  unfold mbind, Py_bind.
  rewrite (record_transaction_run _ items) by exact Hh.
  reflexivity.
Qed.

Lemma deposit_rejects_non_positive self amount w :
  amount ≤ 0 →
  deposit amount self w = (Ok (false, self), printed deposit_error w).
Proof.
  intros Ha. unfold deposit.
  destruct (Z.leb_spec amount 0) as [_|Hgt]; [reflexivity | lia].
Qed.

Lemma deposit_accepts self items amount w :
  history_is self w items →
  0 < amount →
  deposit amount self w =
    (Ok (true, mkBankAccount (owner self) (balance self + amount)
                             (__transaction_history self)),
     printed (deposit_done amount (balance self + amount))
             (recorded self items "deposit" amount w)).
Proof.
  intros Hh Ha. unfold deposit, balance, owner in *.
  destruct (Z.leb_spec amount 0) as [Hle|_]; [lia |].
  unfold mbind, Py_bind.
  rewrite (record_transaction_run _ items) by exact Hh.
  reflexivity.
Qed.



Lemma log_history self w ds :
  log self w = Some ds →
  ∃ items, history_is self w items ∧ mapM (dict_at (heap w)) items = Some ds.
Proof.
  unfold log, entries_of, history_is.
  destruct (heap w !! __transaction_history self) as [[items|d]|]; try discriminate.
  intros H. exists items. split; [reflexivity | exact H].
Qed.

(** A dict that an item refers to is still there after an allocation and
    after a store to a list object. *)
Lemma dict_at_alloc h o v d : dict_at h v = Some d → dict_at (h ++ [o]) v = Some d.
Proof.
  destruct v as [c|l]; [discriminate |]. cbn.
  destruct (h !! l) as [o'|] eqn:Hl; [| discriminate].
  rewrite lookup_app_l by (eapply lookup_lt_Some; exact Hl). rewrite Hl. auto.
Qed.

Lemma dict_at_store_list h l items items' v d :
  h !! l = Some (OList items) →
  dict_at h v = Some d → dict_at (<[l:=OList items']> h) v = Some d.
Proof.
  intros Hl. destruct v as [c|l']; [discriminate |]. cbn.
  destruct (decide (l = l')) as [<-|Hne].
  - rewrite Hl. discriminate.
  - rewrite list_lookup_insert_ne by exact Hne. auto.
Qed.

Lemma recorded_log self items ds ty amount w :
  history_is self w items →
  mapM (dict_at (heap w)) items = Some ds →
  log self (recorded self items ty amount w)
    = Some (ds ++ [tx_record ty amount (clock w (ticks w))]).
Proof.
  unfold history_is, log, entries_of, recorded. cbn [heap]. intros Hh Hds.
  assert (Hlt : (__transaction_history self < length (heap w))%nat)
    by (eapply lookup_lt_Some; exact Hh).
  set (tx := tx_record ty amount (clock w (ticks w))).
  assert (Hh' : (heap w ++ [ODict tx]) !! __transaction_history self = Some (OList items))
    by (rewrite lookup_app_l by exact Hlt; exact Hh).
  rewrite list_lookup_insert_eq by (rewrite length_app; cbn; lia).
  apply mapM_Some. apply Forall2_app.
  - apply mapM_Some in Hds. eapply Forall2_impl; [exact Hds |].
    intros v d Hv. cbn in Hv.
    eapply dict_at_store_list; [exact Hh' |]. apply dict_at_alloc. exact Hv.
  - constructor; [| constructor]. cbn.
    rewrite list_lookup_insert_ne by lia.
    rewrite list_lookup_middle by reflexivity. reflexivity.
Qed.

Lemma do_call_step c self ds w :
  log self w = Some ds →
  post (do_call c self) w (λ r w',
    __transaction_history r.2 = __transaction_history self
    ∧ clock w' = clock w
    ∧ (0 ≤ balance self → 0 ≤ balance r.2)
    ∧ if r.1
      then log r.2 w' = Some (ds ++ [tx_record (kind c) (amount_of c) (clock w (ticks w))])
           ∧ ticks w' = S (ticks w)
      else log r.2 w' = Some ds ∧ ticks w' = ticks w).
Proof.
  intros Hlog. destruct (log_history _ _ _ Hlog) as (items & Hh & Hds).
  destruct c as [amount|amount]; cbn [do_call kind amount_of].
  - destruct (Z.le_gt_cases amount 0) as [Hle|Hgt].
    + eapply post_run; [apply deposit_rejects_non_positive; exact Hle |].
      cbn. auto.
    + eapply post_run; [apply (deposit_accepts _ items); assumption |].
      cbn. repeat split; try reflexivity.
      * unfold balance. lia.
      * apply (recorded_log self items ds); assumption.
  - destruct (Z.le_gt_cases amount 0) as [Hle|Hgt].
    { eapply post_run; [apply withdraw_rejects_non_positive; exact Hle |].
      cbn. auto. }
    destruct (Z.le_gt_cases amount (balance self)) as [Hok|Hover].
    + eapply post_run; [apply (withdraw_accepts _ items); assumption |].
      cbn. repeat split; try reflexivity.
      * unfold balance in *. lia.
      * apply (recorded_log self items ds); assumption.
    + eapply post_run; [apply withdraw_rejects_overdraft; assumption |].
      cbn. auto.
Qed.

Lemma run_calls_log cs : ∀ self ds w,
  log self w = Some ds →
  post (run_calls cs self) w (λ r w',
    length r.1 = length cs
    ∧ __transaction_history r.2 = __transaction_history self
    ∧ (0 ≤ balance self → 0 ≤ balance r.2)
    ∧ log r.2 w' = Some (ds ++ entries (clock w) (ticks w) (successful cs r.1))).
Proof.
  induction cs as [|c cs IH]; intros self ds w Hlog.
  - apply post_ret. cbn. rewrite app_nil_r. auto.
  - cbn [run_calls]. apply post_bind.
    eapply post_mono; [apply (do_call_step c self ds w Hlog) |].
    intros [b self1] w1 (Hh1 & Hc1 & Hb1 & Hstep). cbn [fst snd] in *.
    apply post_bind.
    destruct b.
    + destruct Hstep as [Hlog1 Ht1].
      eapply post_mono; [apply (IH self1 _ w1 Hlog1) |].
      intros [rs self2] w2 (Hlen & Hh2 & Hb2 & Hlog2). cbn [fst snd] in *.
      apply post_ret. cbn [fst snd length successful entries].
      rewrite Hlen, Hh2, Hh1, Hlog2, Hc1, Ht1, <- app_assoc.
      repeat split; auto.
    + destruct Hstep as [Hlog1 Ht1].
      eapply post_mono; [apply (IH self1 _ w1 Hlog1) |].
      intros [rs self2] w2 (Hlen & Hh2 & Hb2 & Hlog2). cbn [fst snd] in *.
      apply post_ret. cbn [fst snd length successful].
      rewrite Hlen, Hh2, Hh1, Hlog2, Hc1, Ht1.
      repeat split; auto.
Qed.

Lemma init_log owner0 initial w :
  post (__init__ owner0 initial) w (λ self w',
    balance self = initial ∧ owner self = owner0
    ∧ log self w' = Some [] ∧ clock w' = clock w ∧ ticks w' = ticks w).
Proof.
  unfold post, __init__, alloc, mbind, Py_bind, log, entries_of. cbn.
  rewrite list_lookup_middle by reflexivity. auto.
Qed.

Lemma get_statement_log self ds w :
  log self w = Some ds →
  post (get_statement self) w (λ stmt w',
    stmt = length (heap w)
    ∧ stmt ≠ __transaction_history self
    ∧ entries_of (heap w') stmt = Some ds
    ∧ log self w' = Some ds).
Proof.
  intros Hlog. destruct (log_history _ _ _ Hlog) as (items & Hh & Hds).
  unfold history_is in Hh.
  assert (Hlt : (__transaction_history self < length (heap w))%nat)
    by (eapply lookup_lt_Some; exact Hh).
  assert (Hds' : mapM (dict_at (heap w ++ [OList items])) items = Some ds).
  { apply mapM_Some. apply mapM_Some in Hds. eapply Forall2_impl; [exact Hds |].
    intros v d Hv. apply dict_at_alloc. exact Hv. }
  unfold post, get_statement, list_copy, as_list, alloc, mbind, Py_bind.
  rewrite Hh. cbn [heap]. unfold log, entries_of. cbn [heap].
  rewrite list_lookup_middle by reflexivity.
  rewrite lookup_app_l by exact Hlt. rewrite Hh.
  repeat split; auto. lia.
Qed.

(** C3. An account constructed with an initial balance [>= 0]: after the
    first [n] calls of any sequence of [deposit] and [withdraw] calls, for
    every [n], the calls have all returned and the balance is [>= 0]. *)
Theorem balance_never_negative (owner0 : string) (initial : Z)
    (cs : list call) (n : nat) (w : World) :
  0 ≤ initial →
  post (self ← __init__ owner0 initial; run_calls (take n cs) self) w
       (λ r _, 0 ≤ balance r.2).
Proof.
  intros Hinit. apply post_bind.
  eapply post_mono; [apply init_log |].
  intros self w1 (Hb & _ & Hlog & _).
  eapply post_mono; [apply (run_calls_log _ self [] w1 Hlog) |].
  intros [rs self'] w2 (_ & _ & Hbal & _). cbn [snd] in *.
  apply Hbal. rewrite Hb. exact Hinit.
Qed.


(** A store to a list object other than the history list changes nothing
    of what the account's history shows. *)
Lemma log_store_other_list self w l items items' ds :
  l ≠ __transaction_history self →
  heap w !! l = Some (OList items) →
  log self w = Some ds →
  log self (mkWorld (<[l:=OList items']> (heap w)) (stdout w) (clock w) (ticks w))
    = Some ds.
Proof.
  intros Hne Hl Hlog. destruct (log_history _ _ _ Hlog) as (its & Hh & Hds).
  unfold history_is in Hh. unfold log, entries_of. cbn [heap].
  rewrite list_lookup_insert_ne by exact Hne. rewrite Hh.
  apply mapM_Some. apply mapM_Some in Hds. eapply Forall2_impl; [exact Hds |].
  intros v d Hv. eapply dict_at_store_list; [exact Hl | exact Hv].
Qed.

(** Whatever a caller does to the list that [get_statement] returned
    (append, clear, assign or delete an item), and whether or not the
    operation raises, the account's own history shows the same records as
    before and the list is still a list. *)
Lemma returned_list_is_a_copy self w l ds m :
  l ≠ __transaction_history self →
  log self w = Some ds →
  log self (mutate_list l m w).2 = Some ds.
Proof.
  intros Hne Hlog.
  destruct (heap w !! l) as [[items|d]|] eqn:Hl.
  - destruct m as [v| |i v|i]; cbn [mutate_list];
      unfold list_append, list_clear, list_setitem, list_delitem, as_list,
        store, raise, mbind, Py_bind; rewrite Hl; cbn [snd];
      try (destruct (decide (i < length items)%nat); [| exact Hlog]);
      eapply log_store_other_list; eassumption.
  - destruct m as [v| |i v|i]; cbn [mutate_list];
      unfold list_append, list_clear, list_setitem, list_delitem, as_list,
        store, raise, mbind, Py_bind; rewrite Hl; exact Hlog.
  - destruct m as [v| |i v|i]; cbn [mutate_list];
      unfold list_append, list_clear, list_setitem, list_delitem, as_list,
        store, raise, mbind, Py_bind; rewrite Hl; exact Hlog.
Qed.

(** Emptying the returned list is not seen by the account: the amount of
    the first transaction still reads 100. *)
Lemma clear_is_not_seen owner0 w :
  post (amount_seen_after list_clear owner0) w (λ v _, v = Imm (PyInt 100)).
Proof.
  destruct w as [h out clk t]. rewrite <- (app_nil_r h).
  unfold amount_seen_after, __init__. bank_run.
  rewrite lookup_insert_ne by discriminate. rewrite lookup_insert_eq.
  apply post_ret. reflexivity.
Qed.

(** C5, the failing case.  A caller that assigns to a field of a record
    in the returned list changes the account's own history: the list is a
    copy, its records are the very dicts of the internal list.  A later
    [get_statement] shows 999 for the deposit of 100. *)
Theorem get_statement_shares_records (owner0 : string) (w : World) :
  post (amount_seen_after forge_amount owner0) w (λ v _, v = Imm (PyInt 999)).
Proof.
  destruct w as [h out clk t]. rewrite <- (app_nil_r h).
  unfold amount_seen_after, forge_amount, __init__. bank_run.
  rewrite lookup_insert_eq. apply post_ret. reflexivity.
Qed.

(** *** The ledger, the output and the clock along a sequence of calls *)



Lemma init_run owner0 initial w :
  __init__ owner0 initial w
    = (Ok (mkBankAccount owner0 initial (length (heap w))),
       mkWorld (heap w ++ [OList []]) (stdout w) (clock w) (ticks w)).
Proof. reflexivity. Qed.

Lemma init_run_log owner0 initial w :
  log (mkBankAccount owner0 initial (length (heap w)))
      (mkWorld (heap w ++ [OList []]) (stdout w) (clock w) (ticks w)) = Some [].
Proof.
  unfold log, entries_of. cbn. rewrite list_lookup_middle by reflexivity. reflexivity.
Qed.



Lemma mutated_log self l ds ms : ∀ w,
  l ≠ __transaction_history self →
  log self w = Some ds →
  log self (mutated l ms w) = Some ds.
Proof.
  induction ms as [|m ms IH]; intros w Hne Hlog; [exact Hlog |].
  cbn [mutated foldl]. apply IH; [exact Hne |].
  apply returned_list_is_a_copy; assumption.
Qed.

(** X3. The list that [get_statement] returns is not the account's own
    list: whatever sequence of appends, clears, item assignments and item
    deletions a caller applies to it, the account's history shows the same
    records as before, and so does the list that a later [get_statement]
    returns. *)
Theorem statement_list_isolated (owner0 : string) (initial : Z) (cs : list call)
    (ms : list list_mutation) (w : World) :
  post (self ← __init__ owner0 initial;
        r ← run_calls cs self;
        s ← get_statement r.2;
        mret (r.2, s)) w
       (λ out w1,
          out.2 ≠ __transaction_history out.1
          ∧ is_Some (log out.1 w1)
          ∧ log out.1 (mutated out.2 ms w1) = log out.1 w1
          ∧ post (get_statement out.1) (mutated out.2 ms w1)
                 (λ later w3, entries_of (heap w3) later = log out.1 w1)).
Proof.
  apply post_bind. eapply post_run; [apply init_run |].
  apply post_bind.
  eapply post_mono; [apply (run_calls_log cs _ [] _ (init_run_log _ _ w)) |].
  intros [rs self'] w2 (_ & _ & _ & Hlog2). cbn [fst snd app] in *.
  apply post_bind.
  eapply post_mono; [apply (get_statement_log self' _ w2 Hlog2) |].
  intros stmt w3 (_ & Hne & _ & Hlog3).
  apply post_ret. cbn [fst snd].
  assert (Hm : log self' (mutated stmt ms w3) = log self' w3)
    by (rewrite Hlog3; apply mutated_log; assumption).
  split; [exact Hne |]. split; [rewrite Hlog3; eauto |]. split; [exact Hm |].
  rewrite Hlog3 in Hm.
  eapply post_mono; [apply (get_statement_log self' _ _ Hm) |].
  intros later w4 (_ & _ & Hlater & _). rewrite Hlog3. exact Hlater.
Qed.



End bank_account.

(** *** Concrete runs *)



Lemma balance_never_negative_witness :
  0 ≤ 100
  ∧ post (self ← __init__ "tanaka" 100;
          run_calls format_comma
            (take 2 [Withdraw 70; Withdraw 70; Deposit (-5)]) self)
         fresh_world (λ r _, 0 ≤ balance r.2).
Proof.
  assert (H : 0 ≤ 100) by (intros Hc; discriminate Hc).
  split; [exact H |].
  exact (balance_never_negative format_comma "tanaka" 100
           [Withdraw 70; Withdraw 70; Deposit (-5)] 2 fresh_world H).
Defined.



End Encapsulation.

(** ** 03_polymorphism.py: the payment methods *)

Module Polymorphism.

(** [class PaymentMethod(ABC)]: [pay] returns its text and the attributes
    of [self] after the call. *)
Class PaymentMethod (M : Type) := {
  pay : M → Z → string * M;
  get_name : M → string
}.

Record CreditCard := mkCreditCard { card_number : string }.

Definition CreditCard_pay (self : CreditCard) (amount : Z) : string * CreditCard :=
  let masked := "************" +:+ str_last 4 (card_number self) in
  ("クレジットカード(" +:+ masked +:+ ")で¥" +:+ format_comma amount
     +:+ "を支払いました", self).

Global Instance CreditCard_method : PaymentMethod CreditCard := {
  pay := CreditCard_pay;
  get_name := λ _, "クレジットカード"
}.

Record BankTransfer := mkBankTransfer { bank_name : string; account : string }.

Definition BankTransfer_pay (self : BankTransfer) (amount : Z) : string * BankTransfer :=
  (bank_name self +:+ "から¥" +:+ format_comma amount +:+ "を振り込みました", self).

Global Instance BankTransfer_method : PaymentMethod BankTransfer := {
  pay := BankTransfer_pay;
  get_name := λ _, "銀行振込"
}.

Record ElectronicMoney := mkElectronicMoney { service_name : string; balance : Z }.

Definition insufficient_text (current : Z) : string :=
  "残高不足です（残高: ¥" +:+ format_comma current +:+ "）".

Definition paid_text (service : string) (amount new_balance : Z) : string :=
  service +:+ "で¥" +:+ format_comma amount +:+ "を支払いました（残高: ¥"
    +:+ format_comma new_balance +:+ "）".

Definition ElectronicMoney_pay (self : ElectronicMoney) (amount : Z)
    : string * ElectronicMoney :=
  if amount >? balance self then
    (insufficient_text (balance self), self)
  else
    let self := mkElectronicMoney (service_name self) (balance self - amount) in
    (paid_text (service_name self) amount (balance self), self).

Global Instance ElectronicMoney_method : PaymentMethod ElectronicMoney := {
  pay := ElectronicMoney_pay;
  get_name := service_name
}.

(** [process_payment(method, amount)], for any payment method. *)
Definition process_payment `{PaymentMethod M} (method : M) (amount : Z) : Py M :=
  print ("【" +:+ get_name method +:+ "】");;
  let r := pay method amount in
  print ("  " +:+ r.1);;
  mret r.2.

(** Payments made one after the other with the same method. *)
Fixpoint pay_all `{PaymentMethod M} (method : M) (amounts : list Z)
    : list string * M :=
  match amounts with
  | [] => ([], method)
  | amount :: rest =>
      let r := pay method amount in
      let rs := pay_all r.2 rest in
      (r.1 :: rs.1, rs.2)
  end.

(** *** The widgets *)

(** [class Drawable(Protocol)] *)
Class Drawable (A : Type) := { draw : A → string }.

Module Button.
Record t := mk { label : string }.
Definition draw (self : t) : string := "[  " +:+ label self +:+ "  ]".
End Button.

Module TextField.
Record t := mk { placeholder : string; value : string }.
Definition __init__ (placeholder : string) : t := mk placeholder "".
Definition draw (self : t) : string :=
  let content :=
    if negb (String.eqb (value self) "") then value self else placeholder self in
  "| " +:+ content +:+ " |".
End TextField.

Module CheckBox.
Record t := mk { label : string; checked : bool }.
Definition draw (self : t) : string :=
  let mark := if checked self then "x" else " " in
  "[" +:+ mark +:+ "] " +:+ label self.
End CheckBox.

Global Instance Button_drawable : Drawable Button.t := { draw := Button.draw }.
Global Instance TextField_drawable : Drawable TextField.t := { draw := TextField.draw }.
Global Instance CheckBox_drawable : Drawable CheckBox.t := { draw := CheckBox.draw }.

(** An item of a [list[Drawable]]: an object of any class that has [draw]. *)
Record component := Component {
  widget : Type;
  widget_drawable : Drawable widget;
  the_widget : widget
}.
Arguments Component {widget widget_drawable} the_widget.

Definition draw_component (c : component) : string :=
  @draw (widget c) (widget_drawable c) (the_widget c).

Fixpoint for_each {A} (body : A → Py unit) (items : list A) : Py unit :=
  match items with
  | [] => mret tt
  | item :: rest => body item;; for_each body rest
  end.

Definition top_border : string := "┌" +:+ str_repeat "─" 30 +:+ "┐".
Definition bottom_border : string := "└" +:+ str_repeat "─" 30 +:+ "┘".
Definition ui_row (c : component) : string :=
  "│ " +:+ ljust 28 (draw_component c) +:+ " │".

Definition render_ui (components : list component) : Py unit :=
  print top_border;;
  for_each (λ c, print (ui_row c)) components;;
  print bottom_border.

Example format_comma_test :
  format_comma 1234567 = "1,234,567" ∧ format_comma (-1000) = "-1,000"
  ∧ format_comma 100 = "100" ∧ format_comma 0 = "0".
Proof. repeat split; reflexivity. Qed.

Example credit_card_test :
  (pay (mkCreditCard "1234-5678-9012-3456") 5000).1
    = "クレジットカード(************3456)で¥5,000を支払いました".
Proof. reflexivity. Qed.

Example electronic_money_test :
  pay (mkElectronicMoney "Suica" 3000) 5000
    = ("残高不足です（残高: ¥3,000）", mkElectronicMoney "Suica" 3000)
  ∧ pay (mkElectronicMoney "Suica" 3000) 1200
    = ("Suicaで¥1,200を支払いました（残高: ¥1,800）", mkElectronicMoney "Suica" 1800).
Proof. split; reflexivity. Qed.

(** C10. [ElectronicMoney.pay(a)]: when [a > balance] the stored balance
    stays as it is and the insufficient-funds text comes back; otherwise
    the stored balance is lower by exactly [a] and the payment text comes
    back.  The service name is never changed. *)
Theorem electronic_money_pay_spec (self : ElectronicMoney) (amount : Z) :
  (balance self < amount →
     pay self amount = (insufficient_text (balance self), self))
  ∧ (amount ≤ balance self →
       pay self amount
         = (paid_text (service_name self) amount (balance self - amount),
            mkElectronicMoney (service_name self) (balance self - amount))).
Proof.
  cbn [pay ElectronicMoney_method]. unfold ElectronicMoney_pay.
  rewrite Z.gtb_ltb.
  destruct (Z.ltb_spec (balance self) amount) as [Hlt|Hge]; split; intros H;
    try lia; [destruct self |]; reflexivity.
Qed.

(** The script's own widgets, drawn. *)
Example render_ui_test :
  stdout (render_ui [ Component (TextField.__init__ "name");
                      Component (CheckBox.mk "agree" false);
                      Component (Button.mk "send") ] fresh_world).2
  = [ "┌──────────────────────────────┐";
      "│ | name |                     │";
      "│ [ ] agree                    │";
      "│ [  send  ]                   │";
      "└──────────────────────────────┘" ].
Proof. vm_compute. reflexivity. Qed.

(** X6. [CreditCard.pay] prints, after twelve stars, the last four
    characters of the card number and nothing else of it; a card number of
    four characters or fewer is printed whole.  The object is unchanged. *)
Theorem credit_card_shows_last_four (self : CreditCard) (amount : Z) :
  ∃ hidden shown,
    card_number self = hidden +:+ shown
    ∧ py_len shown = (4 `min` py_len (card_number self))%nat
    ∧ pay self amount
      = ("クレジットカード(" +:+ ("************" +:+ shown) +:+ ")で¥"
           +:+ format_comma amount +:+ "を支払いました", self)
    ∧ ((py_len (card_number self) ≤ 4)%nat → shown = card_number self).
Proof.
  exists (join (take (py_len (card_number self) - 4) (chars (card_number self)))),
         (str_last 4 (card_number self)).
  split; [apply str_last_split |]. split; [apply str_last_len |].
  split; [reflexivity |]. apply str_last_all.
Qed.

Lemma pay_all_electronic_money (amounts : list Z) : ∀ self : ElectronicMoney,
  length (pay_all self amounts).1 = length amounts
  ∧ service_name (pay_all self amounts).2 = service_name self
  ∧ (0 ≤ balance self → 0 ≤ balance (pay_all self amounts).2)
  ∧ (Forall (λ a, 0 ≤ a) amounts → balance (pay_all self amounts).2 ≤ balance self).
Proof.
  induction amounts as [|a rest IH]; intros self.
  - cbn. repeat split; auto. lia.
  - cbn [pay_all fst snd length].
    destruct (IH (pay self a).2) as (Hlen & Hname & Hpos & Hle).
    assert (Hstep : service_name (pay self a).2 = service_name self
                    ∧ (0 ≤ balance self → 0 ≤ balance (pay self a).2)
                    ∧ (0 ≤ a → balance (pay self a).2 ≤ balance self)).
    { cbn [pay ElectronicMoney_method]. unfold ElectronicMoney_pay.
      rewrite Z.gtb_ltb. destruct (Z.ltb_spec (balance self) a); cbn; repeat split; lia. }
    destruct Hstep as (Hn1 & Hp1 & Hl1).
    rewrite Hlen, Hname, Hn1. repeat split; try reflexivity.
    + intros H0. apply Hpos, Hp1, H0.
    + intros Hall. apply Forall_cons in Hall as [Ha Hrest].
      specialize (Hle Hrest). specialize (Hl1 Ha). lia.
Qed.

(** X7. Whatever amounts are paid one after the other with an
    [ElectronicMoney] object: every payment returns a text, the service
    name stays, a balance that is [>= 0] stays [>= 0], and when no amount
    is negative the balance never grows. *)
Theorem electronic_money_balance_invariants (self : ElectronicMoney)
    (amounts : list Z) :
  length (pay_all self amounts).1 = length amounts
  ∧ service_name (pay_all self amounts).2 = service_name self
  ∧ (0 ≤ balance self → 0 ≤ balance (pay_all self amounts).2)
  ∧ (Forall (λ a, 0 ≤ a) amounts → balance (pay_all self amounts).2 ≤ balance self).
Proof. apply pay_all_electronic_money. Qed.

(** X8. [ElectronicMoney.pay] does not check the sign of the amount: a
    negative amount that is not above the balance is accepted as a payment
    and raises the stored balance by its absolute value. *)
Theorem electronic_money_negative_amount (self : ElectronicMoney) (amount : Z) :
  amount < 0 → amount ≤ balance self →
  pay self amount
    = (paid_text (service_name self) amount (balance self + Z.abs amount),
       mkElectronicMoney (service_name self) (balance self + Z.abs amount))
  ∧ balance self < balance (pay self amount).2.
Proof.
  intros Hneg Hle. cbn [pay ElectronicMoney_method]. unfold ElectronicMoney_pay.
  rewrite Z.gtb_ltb. destruct (Z.ltb_spec (balance self) amount) as [Hlt|_]; [lia |].
  replace (balance self + Z.abs amount) with (balance self - amount) by lia.
  split; [reflexivity |]. cbn. lia.
Qed.

Lemma for_each_print {A} (text : A → string) (items : list A) : ∀ w,
  for_each (λ x, print (text x)) items w
    = (Ok tt, mkWorld (heap w) (stdout w ++ (text <$> items)) (clock w) (ticks w)).
Proof.
  induction items as [|x rest IH]; intros w.
  - cbn. rewrite app_nil_r. destruct w; reflexivity.
  - cbn [for_each]. unfold mbind, Py_bind, print. rewrite IH.
    unfold printed. cbn [heap stdout clock ticks].
    rewrite <- app_assoc. reflexivity.
Qed.

Lemma ui_row_len (c : component) :
  starts_plain (draw_component c) →
  py_len (ui_row c) = (4 + (28 `max` py_len (draw_component c)))%nat.
Proof.
  intros Hd. unfold ui_row.
  assert (Hl : starts_plain (ljust 28 (draw_component c))).
  { unfold ljust. apply starts_plain_app; [exact Hd |].
    destruct (28 - py_len (draw_component c))%nat; reflexivity. }
  rewrite py_len_app by (apply starts_plain_app; [exact Hl | reflexivity]).
  rewrite py_len_app by reflexivity. rewrite ljust_len.
  change (py_len "│ ") with 2%nat. change (py_len " │") with 2%nat. lia.
Qed.

(** X9. [render_ui] prints the top border, one row per component in
    order, and the bottom border.  The borders are 32 characters wide; a
    row is 32 characters wide when the component's text has at most 28
    characters, and wider than the frame otherwise: the text is padded,
    never cut.  The texts of buttons, text fields and check boxes begin
    with a bracket or a bar. *)
Theorem render_ui_rows (components : list component) (w : World) :
  render_ui components w
    = (Ok tt, mkWorld (heap w)
                (stdout w ++ top_border :: (ui_row <$> components) ++ [bottom_border])
                (clock w) (ticks w))
  ∧ py_len top_border = 32%nat ∧ py_len bottom_border = 32%nat
  ∧ (∀ c, starts_plain (draw_component c) →
          py_len (ui_row c) = (4 + (28 `max` py_len (draw_component c)))%nat)
  ∧ (∀ b : Button.t, starts_plain (draw b))
  ∧ (∀ t : TextField.t, starts_plain (draw t))
  ∧ (∀ c : CheckBox.t, starts_plain (draw c)).
Proof.
  split.
  - unfold render_ui, mbind, Py_bind.
    change (print top_border w) with (Ok tt, printed top_border w). cbv beta iota.
    rewrite for_each_print. unfold print, printed. cbn [heap stdout clock ticks].
    rewrite <- !app_assoc. reflexivity.
  - split; [vm_compute; reflexivity |]. split; [vm_compute; reflexivity |].
    split; [apply ui_row_len |]. repeat split.
Qed.

Lemma electronic_money_pay_spec_witness :
  3000 < 5000
  ∧ pay (mkElectronicMoney "Suica" 3000) 5000
    = (insufficient_text 3000, mkElectronicMoney "Suica" 3000).
Proof.
  assert (H : 3000 < 5000) by reflexivity.
  split; [exact H |].
  exact (proj1 (electronic_money_pay_spec (mkElectronicMoney "Suica" 3000) 5000) H).
Defined.

Lemma credit_card_shows_last_four_witness :
  let self := mkCreditCard "123" in
  (py_len (card_number self) ≤ 4)%nat
  ∧ ∃ shown, shown = card_number self
      ∧ pay self 1000
        = ("クレジットカード(" +:+ ("************" +:+ shown) +:+ ")で¥"
             +:+ format_comma 1000 +:+ "を支払いました", self).
Proof.
  intros self.
  assert (H : (py_len (card_number self) ≤ 4)%nat) by (vm_compute; lia).
  split; [exact H |].
  destruct (credit_card_shows_last_four self 1000) as (hidden & shown & _ & _ & Hpay & Hall).
  exists shown. split; [exact (Hall H) | exact Hpay].
Defined.

Lemma electronic_money_balance_invariants_witness :
  let self := mkElectronicMoney "PayPay" 5000 in
  let amounts := [1000; 7000; 4000] in
  0 ≤ balance self ∧ Forall (λ a, 0 ≤ a) amounts
  ∧ 0 ≤ balance (pay_all self amounts).2
  ∧ balance (pay_all self amounts).2 ≤ balance self.
Proof.
  intros self amounts.
  assert (H0 : 0 ≤ balance self) by (intros Hc; discriminate Hc).
  assert (Hall : Forall (λ a, 0 ≤ a) amounts)
    by (repeat constructor; intros Hc; discriminate Hc).
  destruct (electronic_money_balance_invariants self amounts) as (_ & _ & Hpos & Hle).
  split; [exact H0 |]. split; [exact Hall |].
  split; [exact (Hpos H0) | exact (Hle Hall)].
Defined.

Lemma electronic_money_negative_amount_witness :
  let self := mkElectronicMoney "PayPay" 5000 in
  -500 < 0 ∧ -500 ≤ balance self
  ∧ balance self < balance (pay self (-500)).2.
Proof.
  intros self.
  assert (H1 : -500 < 0) by reflexivity.
  assert (H2 : -500 ≤ balance self) by (intros Hc; discriminate Hc).
  split; [exact H1 |]. split; [exact H2 |].
  exact (proj2 (electronic_money_negative_amount self (-500) H1 H2)).
Defined.

Lemma render_ui_rows_witness :
  let c := Component (Button.mk "これは二十八文字を超える長さのボタンのラベルです") in
  starts_plain (draw_component c)
  ∧ py_len (ui_row c) = (4 + (28 `max` py_len (draw_component c)))%nat.
Proof.
  intros c.
  assert (H : starts_plain (draw_component c)) by reflexivity.
  split; [exact H |].
  exact (proj1 (proj2 (proj2 (proj2 (render_ui_rows [c] fresh_world)))) c H).
Defined.

End Polymorphism.

(** ** 04_abstraction.py: data access, the notification facade, the
    weather report *)

Module Abstraction.

(** A dict whose values are immutable: a record of a table, a user. *)
Abbreviation record := (gmap string scalar) (only parsing).

(** [str(v)] *)
Definition py_str (v : scalar) : string :=
  match v with
  | PyNone => "None"
  | PyBool true => "True"
  | PyBool false => "False"
  | PyInt n => pretty n
  | PyStr s => s
  end.

(** The truth value of [v] in an [if]. *)
Definition truthy (v : scalar) : bool :=
  match v with
  | PyNone => false
  | PyBool b => b
  | PyInt n => negb (n =? 0)
  | PyStr s => negb (String.eqb s "")
  end.

(** [d[k]] and [d.get(k)] *)
Definition subscript (d : gmap string scalar) (k : string) : Py scalar :=
  match d !! k with
  | Some v => mret v
  | None => raise (KeyError k)
  end.

Definition get (d : gmap string scalar) (k : string) : scalar :=
  default PyNone (d !! k).

(** *** The data-access contract and its two backends *)

(** [class Database(ABC)].  [connect] and [disconnect] return the
    attributes of [self] after the call; [execute] reads them. *)
Class Database (D : Type) := {
  connect : D → Py D;
  disconnect : D → Py D;
  execute : D → string → Py (list (gmap string scalar))
}.

(** [f"SELECT * FROM {table} WHERE id = {id}"] *)
Definition select_by_id (table : string) (id : Z) : string :=
  "SELECT * FROM " +:+ table +:+ " WHERE id = " +:+ pretty id.

(** The one method implemented by the base class. *)
Definition find_by_id `{Database D} (self : D) (table : string) (id : Z)
    : Py (option (gmap string scalar)) :=
  results ← execute self (select_by_id table id);
  mret (match results with
        | first :: _ => Some first
        | [] => None
        end).

Definition not_connected : string := "データベースに接続されていません".

Definition sample_rows : list (gmap string scalar) :=
  [ <["id" := PyInt 1]> (<["name" := PyStr "サンプル"]> ∅) ].

Module MySQLDatabase.

Record t := mk {
  host : string;
  user : string;
  password : string;
  database : string;
  _connected : bool
}.

Definition __init__ (host user password database : string) : t :=
  mk host user password database false.

Definition connect (self : t) : Py t :=
  print ("MySQL: " +:+ host self +:+ "に接続中...");;
  let self := mk (host self) (user self) (password self) (database self) true in
  print "MySQL: 接続完了";;
  mret self.

Definition disconnect (self : t) : Py t :=
  print "MySQL: 切断中...";;
  let self := mk (host self) (user self) (password self) (database self) false in
  print "MySQL: 切断完了";;
  mret self.

Definition execute (self : t) (query : string) : Py (list (gmap string scalar)) :=
  if negb (_connected self) then raise (RuntimeError not_connected)
  else
    print ("MySQL: 実行 - " +:+ query);;
    mret sample_rows.

End MySQLDatabase.

Global Instance MySQL_database : Database MySQLDatabase.t := {
  connect := MySQLDatabase.connect;
  disconnect := MySQLDatabase.disconnect;
  execute := MySQLDatabase.execute
}.

Module SQLiteDatabase.

Record t := mk {
  filepath : string;
  _connected : bool
}.

Definition __init__ (filepath : string) : t := mk filepath false.

Definition connect (self : t) : Py t :=
  print ("SQLite: " +:+ filepath self +:+ "を開いています...");;
  let self := mk (filepath self) true in
  print "SQLite: 接続完了";;
  mret self.

Definition disconnect (self : t) : Py t :=
  print "SQLite: ファイルを閉じています...";;
  mret (mk (filepath self) false).

Definition execute (self : t) (query : string) : Py (list (gmap string scalar)) :=
  if negb (_connected self) then raise (RuntimeError not_connected)
  else
    print ("SQLite: 実行 - " +:+ query);;
    mret sample_rows.

End SQLiteDatabase.

Global Instance SQLite_database : Database SQLiteDatabase.t := {
  connect := SQLiteDatabase.connect;
  disconnect := SQLiteDatabase.disconnect;
  execute := SQLiteDatabase.execute
}.

(** [fetch_user] of the script: any backend serves. *)
Definition fetch_user `{Database D} (db : D) (user_id : Z)
    : Py (option (gmap string scalar) * D) :=
  db ← connect db;
  user ← find_by_id db "users" user_id;
  db ← disconnect db;
  mret (user, db).

(** *** The notification facade *)

Module EmailService.
Record t := mk {}.
Definition send (self : t) (to : scalar) (subject body : string) : Py unit :=
  print ("  [Email] To: " +:+ py_str to +:+ ", Subject: " +:+ subject).
End EmailService.

Module SMSService.
Record t := mk {}.
Definition send (self : t) (phone : scalar) (message : string) : Py unit :=
  print ("  [SMS] To: " +:+ py_str phone +:+ ", Message: "
           +:+ str_first 20 message +:+ "...").
End SMSService.

Module PushNotificationService.
Record t := mk {}.
Definition send (self : t) (device_id : scalar) (title body : string) : Py unit :=
  print ("  [Push] Device: " +:+ py_str device_id +:+ ", Title: " +:+ title).
End PushNotificationService.

Record NotificationFacade := mkNotificationFacade {
  _email : EmailService.t;
  _sms : SMSService.t;
  _push : PushNotificationService.t
}.

Definition NotificationFacade__init__ : NotificationFacade :=
  mkNotificationFacade EmailService.mk SMSService.mk PushNotificationService.mk.

(** The default of the parameter [title]. *)
Definition default_title : string := "お知らせ".

Definition notify_header (name : scalar) : string :=
  "ユーザー " +:+ py_str name +:+ " に通知を送信:".

(** The values of a user record are immutable values ([str], [int],
    [bool], [None]); [message] and [title] are [str]. *)
Definition notify_user (self : NotificationFacade) (user : gmap string scalar)
    (message title : string) : Py unit :=
  name ← subscript user "name";
  print (notify_header name);;
  (let email := get user "email" in
   if truthy email then EmailService.send (_email self) email title message
   else mret tt);;
  (let phone := get user "phone" in
   if truthy phone then SMSService.send (_sms self) phone message
   else mret tt);;
  (let device_id := get user "device_id" in
   if truthy device_id then PushNotificationService.send (_push self) device_id title message
   else mret tt).

(** The three channels, in the order [notify_user] tries them, the field
    of the user record that each one reads, and the channel that a printed
    text comes from. *)
Inductive channel := Email | SMS | Push.

Definition contact_field (c : channel) : string :=
  match c with
  | Email => "email"
  | SMS => "phone"
  | Push => "device_id"
  end.

Definition channel_of_text (text : string) : option channel :=
  if String.prefix "  [Email] " text then Some Email
  else if String.prefix "  [SMS] " text then Some SMS
  else if String.prefix "  [Push] " text then Some Push
  else None.

(** *** The weather report *)

(** A temperature: a Python number as far as its order goes.  A finite
    [float] or an [int] is the rational that it denotes. *)
Inductive number :=
  | Finite (q : Q)
  | PosInf
  | NegInf
  | NaN.

(** [t >= k] for an [int] literal [k]. *)
Definition ge_int (t : number) (k : Z) : bool :=
  match t with
  | Finite q => Qle_bool (inject_Z k) q
  | PosInf => true
  | NegInf => false
  | NaN => false
  end.

(** [class WeatherAPI(ABC)] *)
Class WeatherAPI (A : Type) := {
  get_temperature : A → string → Py number
}.

Record RealWeatherAPI := mkRealWeatherAPI {}.

Global Instance Real_weather : WeatherAPI RealWeatherAPI := {
  get_temperature := λ _ city,
    print ("外部API呼び出し: " +:+ city +:+ "の気温を取得");;
    mret (Finite 25)
}.

Record MockWeatherAPI := mkMockWeatherAPI { temperature : number }.

Global Instance Mock_weather : WeatherAPI MockWeatherAPI := {
  get_temperature := λ self _, mret (temperature self)
}.

Record WeatherReport (A : Type) := mkWeatherReport { _api : A }.
Arguments mkWeatherReport {A} _api.
Arguments _api {A} _.

Section weather_report.

(** [str(temp)] as an f-string puts it; the digits of a [float] are not
    modelled, and no property below depends on them. *)
Variable number_str : number → string.

Definition report_text (city : string) (temp : number) (feeling : string) : string :=
  city +:+ "の気温は" +:+ number_str temp +:+ "°C（" +:+ feeling +:+ "）です".

Definition generate `{WeatherAPI A} (self : WeatherReport A) (city : string)
    : Py string :=
  temp ← get_temperature (_api self) city;
  let feeling :=
    if ge_int temp 30 then "暑い"
    else if ge_int temp 20 then "快適"
    else if ge_int temp 10 then "涼しい"
    else "寒い" in
  mret (report_text city temp feeling).

End weather_report.

(** The order of the bands, coldest first. *)
Definition band_rank (feeling : string) : nat :=
  if String.eqb feeling "寒い" then 0
  else if String.eqb feeling "涼しい" then 1
  else if String.eqb feeling "快適" then 2
  else 3.

(** *** Properties of the data access *)

(** C6. For both backends and every query: [execute] on an object that
    [connect] was never called on, and [execute] after [disconnect], raise
    [RuntimeError] with the not-connected text and return no rows; so does
    [execute] on any object whose [_connected] is [False]. *)
Theorem execute_requires_connection :
  (∀ host user password database query w,
     raises (execute (MySQLDatabase.__init__ host user password database) query) w
            (RuntimeError not_connected))
  ∧ (∀ filepath query w,
       raises (execute (SQLiteDatabase.__init__ filepath) query) w
              (RuntimeError not_connected))
  ∧ (∀ (db : MySQLDatabase.t) query w,
       raises (db' ← disconnect db; execute db' query) w (RuntimeError not_connected))
  ∧ (∀ (db : SQLiteDatabase.t) query w,
       raises (db' ← disconnect db; execute db' query) w (RuntimeError not_connected))
  ∧ (∀ (db : MySQLDatabase.t) query w,
       MySQLDatabase._connected db = false →
       execute db query w = (Raise (RuntimeError not_connected), w))
  ∧ (∀ (db : SQLiteDatabase.t) query w,
       SQLiteDatabase._connected db = false →
       execute db query w = (Raise (RuntimeError not_connected), w)).
Proof.
  repeat apply conj; try reflexivity.
  - intros db query w Hc. cbn [execute MySQL_database].
    unfold MySQLDatabase.execute. rewrite Hc. reflexivity.
  - intros db query w Hc. cbn [execute SQLite_database].
    unfold SQLiteDatabase.execute. rewrite Hc. reflexivity.
Qed.

Lemma execute_requires_connection_witness :
  let db := SQLiteDatabase.mk "data.db" false in
  SQLiteDatabase._connected db = false
  ∧ execute db "SELECT 1" fresh_world = (Raise (RuntimeError not_connected), fresh_world).
Proof.
  intros db.
  assert (H : SQLiteDatabase._connected db = false) by reflexivity.
  split; [exact H |].
  exact (proj2 (proj2 (proj2 (proj2 (proj2 execute_requires_connection))))
           db "SELECT 1" fresh_world H).
Defined.

(** Connected backends answer every query with the sample row. *)
Lemma execute_connected :
  (∀ (db : MySQLDatabase.t) query w,
     post (db' ← connect db; execute db' query) w (λ rows _, rows = sample_rows))
  ∧ (∀ (db : SQLiteDatabase.t) query w,
       post (db' ← connect db; execute db' query) w (λ rows _, rows = sample_rows)).
Proof. split; reflexivity. Qed.

(** C7. Whatever the backend: when [execute] returns a list for the
    query of [find_by_id], [find_by_id] returns normally, in the same
    world, the first record of a non-empty list and [None] for the empty
    list. *)
Theorem find_by_id_first_or_none `{Database D} (db : D) (table : string) (id : Z)
    (rows : list (gmap string scalar)) (w w' : World) :
  execute db (select_by_id table id) w = (Ok rows, w') →
  (rows = [] → find_by_id db table id w = (Ok None, w'))
  ∧ (∀ first rest, rows = first :: rest →
       find_by_id db table id w = (Ok (Some first), w')).
Proof.
  intros Hrun. unfold find_by_id, mbind, Py_bind. rewrite Hrun.
  split.
  - intros ->. reflexivity.
  - intros first rest ->. reflexivity.
Qed.

Lemma find_by_id_first_or_none_witness :
  let db := MySQLDatabase.mk "localhost" "root" "password" "myapp" true in
  let w' := printed ("MySQL: 実行 - " +:+ select_by_id "users" 1) fresh_world in
  execute db (select_by_id "users" 1) fresh_world = (Ok sample_rows, w')
  ∧ find_by_id db "users" 1 fresh_world
    = (Ok (Some (<["id" := PyInt 1]> (<["name" := PyStr "サンプル"]> ∅))), w').
Proof.
  intros db w'.
  assert (H : execute db (select_by_id "users" 1) fresh_world = (Ok sample_rows, w'))
    by reflexivity.
  split; [exact H |].
  exact (proj2 (find_by_id_first_or_none db "users" 1 sample_rows fresh_world w' H)
               _ [] eq_refl).
Defined.

(** *** Properties of the facade *)

Example sms_text_test :
  (SMSService.send SMSService.mk (PyStr "090-1234-5678")
     "ご注文の商品が発送されました。お届けまで今しばらくお待ちください" fresh_world).2
  = printed "  [SMS] To: 090-1234-5678, Message: ご注文の商品が発送されました。お届けまで..."
            fresh_world.
Proof. reflexivity. Qed.

(** The script's own call: all three channels, in order. *)
Example notify_all_test :
  stdout (notify_user NotificationFacade__init__
            (<["name" := PyStr "田中太郎"]> (<["email" := PyStr "tanaka@example.com"]>
             (<["phone" := PyStr "090-1234-5678"]> (<["device_id" := PyStr "device_abc123"]> ∅))))
            "ご注文の商品が発送されました" default_title fresh_world).2
  = [ "ユーザー 田中太郎 に通知を送信:";
      "  [Email] To: tanaka@example.com, Subject: お知らせ";
      "  [SMS] To: 090-1234-5678, Message: ご注文の商品が発送されました...";
      "  [Push] Device: device_abc123, Title: お知らせ" ].
Proof. vm_compute. reflexivity. Qed.

(** C9 as the specification states it fails in two ways.  A record that
    holds only an email field has no name: [notify_user] raises [KeyError]
    and prints nothing, so no channel is used.  A record whose email field
    is present but empty gets no email: only the header is printed. *)
Lemma notify_user_counterexample :
  notify_user NotificationFacade__init__ (<["email" := PyStr "tanaka@example.com"]> ∅)
              "発送されました" default_title fresh_world
    = (Raise (KeyError "name"), fresh_world)
  ∧ notify_user NotificationFacade__init__
                (<["name" := PyStr "田中太郎"]> (<["email" := PyStr ""]> ∅))
                "発送されました" default_title fresh_world
    = (Ok tt, printed (notify_header (PyStr "田中太郎")) fresh_world).
Proof. split; vm_compute; reflexivity. Qed.

(** C9, amended.  For a user record that has a name: [notify_user]
    returns normally, prints the header and then exactly one text per
    channel whose contact field holds a true value ([get] gives [None] for
    an absent field), in the order email, SMS, push; nothing else changes.
    So a record whose only true contact field is the email is served by
    the email channel alone. *)
Theorem notify_user_dispatch (self : NotificationFacade) (user : gmap string scalar)
    (name : scalar) (message title : string) (w : World) :
  user !! "name" = Some name →
  ∃ texts,
    notify_user self user message title w
      = (Ok tt, mkWorld (heap w) (stdout w ++ notify_header name :: texts)
                        (clock w) (ticks w))
    ∧ channel_of_text <$> texts
      = Some <$> List.filter (λ c, truthy (get user (contact_field c))) [Email; SMS; Push]
    ∧ channel_of_text (notify_header name) = None
    ∧ (truthy (get user "email") = true → truthy (get user "phone") = false →
       truthy (get user "device_id") = false →
       channel_of_text <$> texts = [Some Email]).
Proof.
  intros Hname. unfold notify_user, subscript. rewrite Hname.
  unfold EmailService.send, SMSService.send, PushNotificationService.send.
  cbn [List.filter contact_field].
  destruct (truthy (get user "email")), (truthy (get user "phone")),
    (truthy (get user "device_id"));
    cbv beta iota delta [mbind Py_bind mret Py_ret print printed
                         heap stdout clock ticks];
    rewrite <- ?app_assoc; cbn [app];
    eexists; (split; [reflexivity |]);
    (split; [reflexivity |]); (split; [reflexivity |]);
    intros; first [reflexivity | discriminate].
Qed.

Lemma notify_user_dispatch_witness :
  let user : gmap string scalar :=
    <["name" := PyStr "田中太郎"]> (<["email" := PyStr "tanaka@example.com"]> ∅) in
  user !! "name" = Some (PyStr "田中太郎")
  ∧ ∃ texts,
      notify_user NotificationFacade__init__ user "発送されました" default_title fresh_world
        = (Ok tt, mkWorld [] (notify_header (PyStr "田中太郎") :: texts)
                          (clock fresh_world) 0)
      ∧ channel_of_text <$> texts = [Some Email].
Proof.
  intros user.
  assert (H : user !! "name" = Some (PyStr "田中太郎")) by reflexivity.
  split; [exact H |].
  destruct (notify_user_dispatch NotificationFacade__init__ user _
              "発送されました" default_title fresh_world H)
    as (texts & Hrun & _ & _ & Honly).
  exists texts. split; [exact Hrun |].
  apply Honly; reflexivity.
Defined.

(** *** Properties of the weather report *)

(** The order of the rationals behind the comparisons of [generate]. *)
Lemma ge_int_finite q k : ge_int (Finite q) k = true ↔ (inject_Z k <= q)%Q.
Proof. apply Qle_bool_iff. Qed.

Lemma ge_int_finite_false q k : ge_int (Finite q) k = false ↔ (q < inject_Z k)%Q.
Proof.
  split.
  - intros Hf. apply Qnot_le_lt. intros Hle.
    apply ge_int_finite in Hle. congruence.
  - intros Hlt. destruct (ge_int (Finite q) k) eqn:Hge; [| reflexivity].
    apply ge_int_finite in Hge. apply Qlt_not_le in Hlt. contradiction.
Qed.


(** Infinities and not-a-number: [inf] is hot, [-inf] and [nan] are cold
    ([nan >= k] is false for every [k]). *)
Lemma generate_special_values (number_str : number → string) (city : string) (w : World) :
  generate number_str (mkWeatherReport (mkMockWeatherAPI PosInf)) city w
    = (Ok (report_text number_str city PosInf "暑い"), w)
  ∧ generate number_str (mkWeatherReport (mkMockWeatherAPI NegInf)) city w
    = (Ok (report_text number_str city NegInf "寒い"), w)
  ∧ generate number_str (mkWeatherReport (mkMockWeatherAPI NaN)) city w
    = (Ok (report_text number_str city NaN "寒い"), w).
Proof. repeat split. Qed.



(** *** Further properties *)

(** X10. [fetch_user] works on a backend in any state: it connects,
    finds the record, disconnects, and returns the record together with a
    backend that is disconnected and otherwise as it was; the texts are
    printed in that order. *)
Theorem fetch_user_leaves_disconnected :
  (∀ (db : MySQLDatabase.t) (user_id : Z) (w : World),
     fetch_user db user_id w
       = (Ok (Some (<["id" := PyInt 1]> (<["name" := PyStr "サンプル"]> ∅)),
              MySQLDatabase.mk (MySQLDatabase.host db) (MySQLDatabase.user db)
                (MySQLDatabase.password db) (MySQLDatabase.database db) false),
          mkWorld (heap w)
            (stdout w ++ [ "MySQL: " +:+ MySQLDatabase.host db +:+ "に接続中...";
                           "MySQL: 接続完了";
                           "MySQL: 実行 - " +:+ select_by_id "users" user_id;
                           "MySQL: 切断中...";
                           "MySQL: 切断完了" ])
            (clock w) (ticks w)))
  ∧ (∀ (db : SQLiteDatabase.t) (user_id : Z) (w : World),
       fetch_user db user_id w
         = (Ok (Some (<["id" := PyInt 1]> (<["name" := PyStr "サンプル"]> ∅)),
                SQLiteDatabase.mk (SQLiteDatabase.filepath db) false),
            mkWorld (heap w)
              (stdout w ++ [ "SQLite: " +:+ SQLiteDatabase.filepath db +:+ "を開いています...";
                             "SQLite: 接続完了";
                             "SQLite: 実行 - " +:+ select_by_id "users" user_id;
                             "SQLite: ファイルを閉じています..." ])
              (clock w) (ticks w))).
Proof.
  split; intros db user_id w;
    unfold fetch_user, find_by_id, mbind, Py_bind;
    cbn [connect disconnect execute MySQL_database SQLite_database];
    unfold MySQLDatabase.connect, MySQLDatabase.disconnect, MySQLDatabase.execute,
      SQLiteDatabase.connect, SQLiteDatabase.disconnect, SQLiteDatabase.execute,
      mbind, Py_bind, mret, Py_ret, print, printed;
    cbn; rewrite <- !app_assoc; reflexivity.
Qed.

(** X11. [find_by_id] passes on what [execute] raises, in the world that
    [execute] left; so on either backend, while it is not connected,
    [find_by_id] raises the not-connected error and prints nothing. *)
Theorem find_by_id_passes_errors_on :
  (∀ D (backend : Database D) (db : D) table id e w w',
     execute db (select_by_id table id) w = (Raise e, w') →
     find_by_id db table id w = (Raise e, w'))
  ∧ (∀ (db : MySQLDatabase.t) table id w,
       MySQLDatabase._connected db = false →
       find_by_id db table id w = (Raise (RuntimeError not_connected), w))
  ∧ (∀ (db : SQLiteDatabase.t) table id w,
       SQLiteDatabase._connected db = false →
       find_by_id db table id w = (Raise (RuntimeError not_connected), w)).
Proof.
  repeat apply conj.
  - intros D backend db table id e w w' Hrun.
    unfold find_by_id, mbind, Py_bind. rewrite Hrun. reflexivity.
  - intros db table id w Hc. unfold find_by_id, mbind, Py_bind.
    cbn [execute MySQL_database]. unfold MySQLDatabase.execute. rewrite Hc. reflexivity.
  - intros db table id w Hc. unfold find_by_id, mbind, Py_bind.
    cbn [execute SQLite_database]. unfold SQLiteDatabase.execute. rewrite Hc. reflexivity.
Qed.

Lemma find_by_id_passes_errors_on_witness :
  let db := MySQLDatabase.__init__ "localhost" "root" "password" "myapp" in
  MySQLDatabase._connected db = false
  ∧ find_by_id db "users" 1 fresh_world = (Raise (RuntimeError not_connected), fresh_world).
Proof.
  intros db.
  assert (H : MySQLDatabase._connected db = false) by reflexivity.
  split; [exact H |].
  exact (proj1 (proj2 find_by_id_passes_errors_on) db "users" 1 fresh_world H).
Defined.

(** X12. A user record without a name: [notify_user] raises
    [KeyError('name')] before anything is printed, whatever contact fields
    the record holds; no channel is used. *)
Theorem notify_user_needs_name (self : NotificationFacade) (user : gmap string scalar)
    (message title : string) (w : World) :
  user !! "name" = None →
  notify_user self user message title w = (Raise (KeyError "name"), w).
Proof.
  intros Hname. unfold notify_user, subscript, mbind, Py_bind. rewrite Hname. reflexivity.
Qed.

Lemma notify_user_needs_name_witness :
  let user : gmap string scalar :=
    <["email" := PyStr "tanaka@example.com"]> (<["phone" := PyStr "090-1234-5678"]> ∅) in
  user !! "name" = None
  ∧ notify_user NotificationFacade__init__ user "発送されました" default_title fresh_world
    = (Raise (KeyError "name"), fresh_world).
Proof.
  intros user.
  assert (H : user !! "name" = None) by reflexivity.
  split; [exact H |].
  exact (notify_user_needs_name NotificationFacade__init__ user _ _ fresh_world H).
Defined.

(** X13. The SMS text shows a preview of the message followed by three
    dots: the preview is the beginning of the message, at most 20
    characters of it, and the whole message when that has 20 characters or
    fewer.  The dots are printed in every case. *)
Theorem sms_preview (self : SMSService.t) (phone : scalar) (message : string)
    (w : World) :
  ∃ preview rest,
    message = preview +:+ rest
    ∧ py_len preview = (20 `min` py_len message)%nat
    ∧ ((py_len message ≤ 20)%nat → preview = message)
    ∧ SMSService.send self phone message w
      = (Ok tt, printed ("  [SMS] To: " +:+ py_str phone +:+ ", Message: "
                           +:+ preview +:+ "...") w).
Proof.
  exists (str_first 20 message), (join (drop 20 (chars message))).
  split; [apply str_first_split |]. split; [apply str_first_len |].
  split; [apply str_first_all | reflexivity].
Qed.

Lemma sms_preview_witness :
  (py_len "発送されました" ≤ 20)%nat
  ∧ ∃ preview, preview = "発送されました"
      ∧ SMSService.send SMSService.mk (PyStr "090-1234-5678") "発送されました" fresh_world
        = (Ok tt, printed ("  [SMS] To: " +:+ py_str (PyStr "090-1234-5678")
                             +:+ ", Message: " +:+ preview +:+ "...") fresh_world).
Proof.
  assert (H : (py_len "発送されました" ≤ 20)%nat) by (vm_compute; lia).
  split; [exact H |].
  destruct (sms_preview SMSService.mk (PyStr "090-1234-5678") "発送されました" fresh_world)
    as (preview & rest & _ & _ & Hall & Hsend).
  exists preview. split; [exact (Hall H) | exact Hsend].
Defined.

(** X14. The message reaches the SMS channel only: for a user without a
    true phone field, [notify_user] does the same, text for text, whatever
    the message is.  The email and push texts carry the title, not the
    message. *)
Theorem message_reaches_sms_only (self : NotificationFacade)
    (user : gmap string scalar) (message1 message2 title : string) (w : World) :
  truthy (get user "phone") = false →
  notify_user self user message1 title w = notify_user self user message2 title w.
Proof.
  intros Hphone. unfold notify_user, mbind, Py_bind, subscript.
  destruct (user !! "name") as [name|]; [| reflexivity].
  cbv zeta. rewrite Hphone.
  unfold EmailService.send, PushNotificationService.send.
  reflexivity.
Qed.

Lemma message_reaches_sms_only_witness :
  let user : gmap string scalar :=
    <["name" := PyStr "田中太郎"]> (<["email" := PyStr "tanaka@example.com"]>
      (<["device_id" := PyStr "device_abc123"]> ∅)) in
  truthy (get user "phone") = false
  ∧ notify_user NotificationFacade__init__ user "発送されました" default_title fresh_world
    = notify_user NotificationFacade__init__ user "キャンセルされました" default_title fresh_world.
Proof.
  intros user.
  assert (H : truthy (get user "phone") = false) by reflexivity.
  split; [exact H |].
  exact (message_reaches_sms_only NotificationFacade__init__ user _ _ _ fresh_world H).
Defined.

(** X15. The bands follow the temperature: of two sources fixed at finite
    temperatures, the warmer one never gets the colder band. *)
Theorem generate_is_monotone (number_str : number → string) (t1 t2 : Q)
    (city : string) (w : World) :
  (t1 <= t2)%Q →
  ∃ feeling1 feeling2,
    generate number_str (mkWeatherReport (mkMockWeatherAPI (Finite t1))) city w
      = (Ok (report_text number_str city (Finite t1) feeling1), w)
    ∧ generate number_str (mkWeatherReport (mkMockWeatherAPI (Finite t2))) city w
      = (Ok (report_text number_str city (Finite t2) feeling2), w)
    ∧ (band_rank feeling1 ≤ band_rank feeling2)%nat.
Proof.
  intros Hle.
  unfold generate, mbind, Py_bind. cbn [_api get_temperature Mock_weather temperature].
  unfold mret, Py_ret.
  destruct (ge_int (Finite t1) 30) eqn:H130;
    [apply ge_int_finite in H130 | apply ge_int_finite_false in H130];
  (destruct (ge_int (Finite t1) 20) eqn:H120;
    [apply ge_int_finite in H120 | apply ge_int_finite_false in H120]);
  (destruct (ge_int (Finite t1) 10) eqn:H110;
    [apply ge_int_finite in H110 | apply ge_int_finite_false in H110]);
  (destruct (ge_int (Finite t2) 30) eqn:H230;
    [apply ge_int_finite in H230 | apply ge_int_finite_false in H230]);
  (destruct (ge_int (Finite t2) 20) eqn:H220;
    [apply ge_int_finite in H220 | apply ge_int_finite_false in H220]);
  (destruct (ge_int (Finite t2) 10) eqn:H210;
    [apply ge_int_finite in H210 | apply ge_int_finite_false in H210]);
  unfold inject_Z in *;
  try (exfalso; lra);
  eexists _, _; (split; [reflexivity |]); (split; [reflexivity |]);
  vm_compute; lia.
Qed.

Lemma generate_is_monotone_witness :
  let number_str : number → string := λ _, "?" in
  (5 <= 35)%Q
  ∧ ∃ feeling1 feeling2,
      generate number_str (mkWeatherReport (mkMockWeatherAPI (Finite 5))) "東京" fresh_world
        = (Ok (report_text number_str "東京" (Finite 5) feeling1), fresh_world)
      ∧ generate number_str (mkWeatherReport (mkMockWeatherAPI (Finite 35))) "東京" fresh_world
        = (Ok (report_text number_str "東京" (Finite 35) feeling2), fresh_world)
      ∧ (band_rank feeling1 ≤ band_rank feeling2)%nat.
Proof.
  intros number_str.
  assert (H : (5 <= 35)%Q) by (intros Hc; discriminate Hc).
  split; [exact H |].
  exact (generate_is_monotone number_str 5 35 "東京" fresh_world H).
Defined.

End Abstraction.
